(** * Eco-footprint dashboard: the Flask application of [main.py]

    A shallow embedding of [calculate_footprint] and of the two routes
    [index] and [result], together with the parts of the Python runtime
    the routes rely on: the builtin [float], the request's form and
    query mappings, [print], and the part of [matplotlib.pyplot] that
    builds a bar chart.  What [float] makes of a text with characters
    beyond ASCII is left open, as a parameter of the whole development.

    Python floats are IEEE 754 binary64 numbers; they are modelled by
    [spec_float] with precision 53 and maximal exponent 1024, so that
    [+] is the correctly rounded binary64 addition. *)

From Stdlib Require Import ZArith Ascii String List SpecFloat.
From stdpp Require Import base option list strings gmap.

Local Open Scope Z_scope.
Local Open Scope string_scope.

(** ** Binary64 numbers *)

Module Float.

Definition prec : Z := 53.
Definition emax : Z := 1024.

Definition float : Type := spec_float.

Definition zero : float := S754_zero false.
Definition infinity : float := S754_infinity false.
Definition nan : float := S754_nan.

(** Python's [x + y], [-x] and [x == y] on floats. *)
Definition add (x y : float) : float := SFadd prec emax x y.
Definition neg (x : float) : float := SFopp x.
Definition eqb (x y : float) : bool := SFeqb x y.
Definition leb (x y : float) : bool := SFleb x y.

(** [math.isfinite], [math.isnan]. *)
Definition is_finite (x : float) : bool :=
  match x with
  | S754_zero _ | S754_finite _ _ _ => true
  | S754_infinity _ | S754_nan => false
  end.

Definition is_nan (x : float) : bool :=
  match x with S754_nan => true | _ => false end.

(** The binary64 number nearest to the integer [n] (ties to even);
    an integer beyond the range rounds to an infinity. *)
Definition of_Z (n : Z) : float := binary_normalize prec emax n 0 false.

(** The binary64 number nearest to [m * 10 ^ k] for [m > 0] (ties to
    even).  For a negative [k] the quotient [m / 10 ^ (- k)] is rounded
    once, from the integer quotient and the position of the remainder. *)
Definition of_decimal (m : positive) (k : Z) : float :=
  match k with
  | Zneg p => SFdiv prec emax (S754_finite false m 0)
                             (S754_finite false (10 ^ p)%positive 0)
  | _ => of_Z (Zpos m * 10 ^ k)
  end.

End Float.

Abbreviation float := Float.float.
Infix "+f" := Float.add (at level 50, left associativity).

(** ** The text accepted by [float(str)]

    CPython strips ASCII white space at both ends, removes the
    underscores that stand between two digits, and then reads an
    optional sign followed by [inf], [infinity], [nan] (in any case) or
    a decimal numeral with an optional exponent.  The whole text has to
    be consumed.  This is [parse_ascii], which decides every text whose
    characters are all below 128.

    In a text with a character beyond ASCII, CPython first replaces
    each Unicode decimal digit and each Unicode white space by its
    ASCII counterpart, following the tables of its Unicode database.
    The tables are not part of this development: strings are sequences
    of 8-bit characters, and the number [float] reads from a text with
    a character above 127, if any, is the parameter [read_non_ascii],
    however the text is encoded.  Every theorem holds for every value
    of the parameter. *)

Class NonAsciiReading : Type :=
  read_non_ascii : string -> option float.

Module FloatSyntax.

Definition is_space (c : ascii) : bool :=
  let n := N_of_ascii c in
  ((n =? 32) || ((9 <=? n) && (n <=? 13)))%N.

Definition is_digit (c : ascii) : bool :=
  let n := N_of_ascii c in
  ((48 <=? n) && (n <=? 57))%N.

Definition digit_value (c : ascii) : Z := Z.of_N (N_of_ascii c) - 48.

Definition lower (c : ascii) : ascii :=
  let n := N_of_ascii c in
  if ((65 <=? n) && (n <=? 90))%N then ascii_of_N (n + 32) else c.

Fixpoint lstrip (l : list ascii) : list ascii :=
  match l with
  | c :: l' => if is_space c then lstrip l' else l
  | [] => []
  end.

Definition strip (l : list ascii) : list ascii :=
  rev (lstrip (rev (lstrip l))).

(** An underscore is allowed only right after a digit and right
    before a digit; [prev] is the character read last. *)
Fixpoint drop_underscores (prev : option ascii) (l : list ascii)
  : option (list ascii) :=
  match l with
  | [] =>
      match prev with
      | Some "_"%char => None
      | _ => Some []
      end
  | c :: l' =>
      if Ascii.eqb c "_" then
        match prev with
        | Some p => if is_digit p then drop_underscores (Some c) l' else None
        | None => None
        end
      else
        match prev with
        | Some "_"%char =>
            if is_digit c then cons c <$> drop_underscores (Some c) l' else None
        | _ => cons c <$> drop_underscores (Some c) l'
        end
  end.

Fixpoint span_digits (l : list ascii) : list ascii * list ascii :=
  match l with
  | c :: l' =>
      if is_digit c then
        let '(ds, rest) := span_digits l' in (c :: ds, rest)
      else ([], l)
  | [] => ([], [])
  end.

Definition digits_to_Z (ds : list ascii) : Z :=
  fold_left (fun acc c => 10 * acc + digit_value c) ds 0.

(** An optional sign: [true] for a minus. *)
Definition read_sign (l : list ascii) : bool * list ascii :=
  match l with
  | "-"%char :: l' => (true, l')
  | "+"%char :: l' => (false, l')
  | _ => (false, l)
  end.

(** The exponent part, [None] when the text is not [e], an optional
    sign and at least one digit up to the end of the text. *)
Definition read_exponent (l : list ascii) : option Z :=
  match l with
  | [] => Some 0
  | c :: l' =>
      if Ascii.eqb (lower c) "e" then
        let '(s, l'') := read_sign l' in
        match span_digits l'' with
        | ((_ :: _) as ds, []) =>
            Some (if s then - digits_to_Z ds else digits_to_Z ds)
        | _ => None
        end
      else None
  end.

(** A decimal numeral: its digits as an integer and its power of ten. *)
Definition read_decimal (l : list ascii) : option (Z * Z) :=
  let '(ip, r1) := span_digits l in
  let '(fp, r2) :=
    match r1 with
    | "."%char :: r => span_digits r
    | _ => ([], r1)
    end in
  match (ip ++ fp)%list with
  | [] => None
  | ds =>
      e ← read_exponent r2;
      Some (digits_to_Z ds, e - Z.of_nat (length fp))
  end.

Definition read_unsigned (l : list ascii) : option float :=
  let name := string_of_list_ascii (map lower l) in
  if String.eqb name "inf" || String.eqb name "infinity" then
    Some Float.infinity
  else if String.eqb name "nan" then
    Some Float.nan
  else
    '(m, k) ← read_decimal l;
    Some match m with
         | Zpos p => Float.of_decimal p k
         | _ => Float.zero
         end.

Definition parse_ascii (s : string) : option float :=
  match strip (list_ascii_of_string s) with
  | [] => None
  | l =>
      l' ← drop_underscores None l;
      let '(sgn, body) := read_sign l' in
      x ← read_unsigned body;
      Some (if sgn then Float.neg x else x)
  end.

Definition is_ascii (s : string) : bool :=
  forallb (fun c => (N_of_ascii c <? 128)%N) (list_ascii_of_string s).

Definition parse `{NonAsciiReading} (s : string) : option float :=
  if is_ascii s then parse_ascii s else read_non_ascii s.

End FloatSyntax.

Arguments FloatSyntax.parse {_} s : simpl never.

(** ** Python values, exceptions and the effects of a request

    A request handler reads the request, writes lines on the standard
    output and drives the global state of [matplotlib.pyplot]; it
    either returns a value or raises an exception. *)

Inductive PyVal : Type :=
  | VNone
  | VInt (n : Z)
  | VFloat (x : float)
  | VStr (s : string).

(** The classes of exception the program distinguishes, each with the
    value or the text it reports.  Every one of them derives from
    [Exception]. *)
Inductive exn : Type :=
  | ValueError (culprit : PyVal)
  | TypeError (culprit : PyVal)
  | OverflowError (culprit : PyVal)
  | OtherException (class message : string).

Inductive Result (A : Type) : Type :=
  | Ok (a : A)
  | Raise (e : exn).
Arguments Ok {A} a.
Arguments Raise {A} e.

(** A bar of a chart: its position on the category axis, its height and
    its colour. *)
Record Bar : Type := mkBar {
  bar_x : nat;
  bar_height : float;
  bar_color : string
}.

(** A figure with its single axes.  [categories] is the unit table of
    the x axis: the category at index [i] labels position [i]. *)
Record Figure : Type := mkFigure {
  figsize : Z * Z;
  categories : list string;
  bars : list Bar;
  fig_title : string;
  fig_xlabel : string;
  fig_ylabel : string
}.

(** The process state a handler can touch: the lines printed so far
    (a prefix and the exception formatted after it) and the figures
    pyplot keeps open, the current one first. *)
Record World : Type := mkWorld {
  stdout : list (string * exn);
  figures : list Figure
}.

Definition M (A : Type) : Type := World -> Result A * World.

#[export] Instance M_ret : MRet M := fun A a w => (Ok a, w).

#[export] Instance M_bind : MBind M := fun A B f m w =>
  match m w with
  | (Ok a, w') => f a w'
  | (Raise e, w') => (Raise e, w')
  end.

Definition raise {A : Type} (e : exn) : M A := fun w => (Raise e, w).

Definition lift {A : Type} (r : Result A) : M A := fun w => (r, w).

(** [try: body except classes as e: handler e]; the effects of [body]
    up to the exception are kept. *)
Definition try_except {A : Type} (body : M A) (catches : exn -> bool)
    (handler : exn -> M A) : M A := fun w =>
  match body w with
  | (Ok a, w') => (Ok a, w')
  | (Raise e, w') => if catches e then handler e w' else (Raise e, w')
  end.

(** [print(f"{prefix}{e}")]; the standard output takes every line. *)
Definition print (prefix : string) (e : exn) : M unit := fun w =>
  (Ok tt, mkWorld (stdout w ++ [(prefix, e)]) (figures w)).

(** *** The builtin [float] *)

Definition py_float `{NonAsciiReading} (v : PyVal) : Result float :=
  match v with
  | VFloat x => Ok x
  | VInt n =>
      let x := Float.of_Z n in
      if Float.is_finite x then Ok x else Raise (OverflowError v)
  | VStr s =>
      match FloatSyntax.parse s with
      | Some x => Ok x
      | None => Raise (ValueError v)
      end
  | VNone => Raise (TypeError v)
  end.

(** *** Form and query mappings: [mapping.get(key, default)] *)

Definition get (data : gmap string string) (key : string) (default : PyVal)
    : PyVal :=
  match data !! key with
  | Some s => VStr s
  | None => default
  end.

(** ** The helper [calculate_footprint] *)

Definition is_ValueError_or_TypeError (e : exn) : bool :=
  match e with
  | ValueError _ | TypeError _ => true
  | _ => false
  end.

Definition is_Exception (e : exn) : bool := true.

Definition calculate_footprint `{NonAsciiReading}
    (data : gmap string string)
    : M (option (float * float * float * float)) :=
  try_except
    (transport ← lift (py_float (get data "transport" (VInt 0)));
     electricity ← lift (py_float (get data "electricity" (VInt 0)));
     waste ← lift (py_float (get data "waste" (VInt 0)));
     let total := transport +f electricity +f waste in
     mret (Some (transport, electricity, waste, total)))
    is_ValueError_or_TypeError
    (fun e =>
       print "Error in calculating footprint: " e;;
       mret None).

(** ** Requests and responses *)

Record Request : Type := mkRequest {
  method : string;
  form : gmap string string;
  args : gmap string string
}.

Inductive Response : Type :=
  | Rendered (template : string) (context : list (string * PyVal))
  | Redirected (endpoint : string) (values : list (string * PyVal)).

Definition render_template (template : string)
    (context : list (string * PyVal)) : Response :=
  Rendered template context.

Definition url_for (endpoint : string) (values : list (string * PyVal))
    : string * list (string * PyVal) :=
  (endpoint, values).

Definition redirect (url : string * list (string * PyVal)) : Response :=
  Redirected url.1 url.2.

(** ** The route [/] *)

Definition index `{NonAsciiReading} (request : Request) : M Response :=
  if String.eqb (method request) "POST" then
    result ← calculate_footprint (form request);
    match result with
    | None =>
        mret (render_template "index.html"
                [("error", VStr "Invalid input values.")])
    | Some (r0, r1, r2, r3) =>
        mret (redirect (url_for "result"
                [("transport", VFloat r0); ("electricity", VFloat r1);
                 ("waste", VFloat r2); ("total", VFloat r3)]))
    end
  else mret (render_template "index.html" []).

(** ** The part of [matplotlib.pyplot] the result page uses

    pyplot keeps the open figures in a global table; [figure] opens a
    new one and makes it current, and the drawing functions act on the
    current figure, opening one when there is none.  The current figure
    is the head of [figures]. *)

Module plt.

Definition empty_figure (size : Z * Z) : Figure :=
  mkFigure size [] [] "" "" "".

(** The size of a figure opened implicitly, in tenths of an inch
    (the default of 6.4 by 4.8 inches is not used by the routes). *)
Definition default_figsize : Z * Z := (64, 48).

Definition figure (figsize : Z * Z) : M unit := fun w =>
  (Ok tt, mkWorld (stdout w) (empty_figure figsize :: figures w)).

Definition gcf : M Figure := fun w =>
  match figures w with
  | f :: _ => (Ok f, w)
  | [] =>
      let f := empty_figure default_figsize in
      (Ok f, mkWorld (stdout w) [f])
  end.

Definition set_gcf (f : Figure) : M unit := fun w =>
  (Ok tt, mkWorld (stdout w) (f :: tail (figures w))).

Fixpoint index_of (c : string) (table : list string) : option nat :=
  match table with
  | [] => None
  | c' :: table' =>
      if String.eqb c c' then Some O else S <$> index_of c table'
  end.

(** A category seen before keeps its position; a new one takes the
    next free position. *)
Fixpoint convert_categories (table : list string) (cs : list string)
  : list string * list nat :=
  match cs with
  | [] => (table, [])
  | c :: cs' =>
      match index_of c table with
      | Some i =>
          let '(table', xs) := convert_categories table cs' in
          (table', i :: xs)
      | None =>
          let '(table', xs) :=
            convert_categories (table ++ [c])%list cs' in
          (table', length table :: xs)
      end
  end.

(** The colours are taken in turn, starting over when the list is
    shorter than the number of bars. *)
Fixpoint make_bars (xs : list nat) (heights : list float)
    (colors : list string) (i : nat) : list Bar :=
  match xs, heights with
  | x :: xs', h :: heights' =>
      mkBar x h (nth (i mod length colors) colors "C0")
        :: make_bars xs' heights' colors (S i)
  | _, _ => []
  end.

Definition bar (x : list string) (height : list float)
    (color : list string) : M unit :=
  f ← gcf;
  if Nat.eqb (length x) (length height) then
    let '(table, xs) := convert_categories (categories f) x in
    set_gcf (mkFigure (figsize f) table
               (bars f ++ make_bars xs height color O)%list
               (fig_title f) (fig_xlabel f) (fig_ylabel f))
  else raise (ValueError (VStr "shape mismatch")).

Definition title (label : string) : M unit :=
  f ← gcf;
  set_gcf (mkFigure (figsize f) (categories f) (bars f)
             label (fig_xlabel f) (fig_ylabel f)).

Definition xlabel (label : string) : M unit :=
  f ← gcf;
  set_gcf (mkFigure (figsize f) (categories f) (bars f)
             (fig_title f) label (fig_ylabel f)).

Definition ylabel (label : string) : M unit :=
  f ← gcf;
  set_gcf (mkFigure (figsize f) (categories f) (bars f)
             (fig_title f) (fig_xlabel f) label).

(** The bars of a figure as the reader sees them: for each bar its
    position, the label of that position and its height. *)
Definition labelled_bars (f : Figure) : list (nat * option string * float) :=
  map (fun b => (bar_x b, categories f !! bar_x b, bar_height b)) (bars f).

End plt.

(** ** [base64.b64encode(...).decode()] *)

Module base64.

Definition alphabet : string :=
  "ABCDEFGHIJKLMNOPQRSTUVWXYZabcdefghijklmnopqrstuvwxyz0123456789+/".

Definition sextet (n : N) : ascii :=
  match String.get (N.to_nat (N.land n 63)) alphabet with
  | Some c => c
  | None => "="%char
  end.

Fixpoint b64encode (l : list Byte.byte) : string :=
  match l with
  | [] => ""
  | [a] =>
      let n := N.shiftl (Byte.to_N a) 16 in
      String (sextet (N.shiftr n 18)) (String (sextet (N.shiftr n 12)) "==")
  | [a; b] =>
      let n := N.lor (N.shiftl (Byte.to_N a) 16) (N.shiftl (Byte.to_N b) 8) in
      String (sextet (N.shiftr n 18)) (String (sextet (N.shiftr n 12))
        (String (sextet (N.shiftr n 6)) "="))
  | a :: b :: c :: l' =>
      let n := N.lor (N.lor (N.shiftl (Byte.to_N a) 16)
                            (N.shiftl (Byte.to_N b) 8)) (Byte.to_N c) in
      String (sextet (N.shiftr n 18)) (String (sextet (N.shiftr n 12))
        (String (sextet (N.shiftr n 6)) (String (sextet n) (b64encode l'))))
  end.

End base64.

(** ** The route [/result]

    Writing the picture is the work of the plotting library's renderer:
    [savefig] is a parameter that, from the figures pyplot holds (the
    current one first), gives the bytes of the picture or raises. *)

Section ResultRoute.

Context `{NonAsciiReading}.
Variable savefig : list Figure -> Result (list Byte.byte).

Definition write_png : M (list Byte.byte) := fun w =>
  (savefig (figures w), w).

Definition plt_savefig : M (list Byte.byte) :=
  plt.gcf;; write_png.

(** Lines 69 to 75: the chart. *)
Definition draw_chart (transport electricity waste : float) : M unit :=
  plt.figure (6, 4);;
  let categories := ["Transport"; "Electricity"; "Waste"] in
  let values := [transport; electricity; waste] in
  plt.bar categories values ["blue"; "green"; "red"];;
  plt.title "Carbon Footprint Breakdown";;
  plt.xlabel "Category";;
  plt.ylabel "Carbon Footprint (in CO2e)".

Definition result (request : Request) : M Response :=
  try_except
    (transport ← lift (py_float (get (args request) "transport" (VInt 0)));
     electricity ← lift (py_float (get (args request) "electricity" (VInt 0)));
     waste ← lift (py_float (get (args request) "waste" (VInt 0)));
     total ← lift (py_float (get (args request) "total" (VInt 0)));
     draw_chart transport electricity waste;;
     img ← plt_savefig;
     let plot_url := base64.b64encode img in
     mret (render_template "result.html"
             [("plot_url", VStr plot_url); ("total", VFloat total)]))
    is_Exception
    (fun e =>
       print "Error in generating result: " e;;
       mret (render_template "index.html"
               [("error", VStr "Error in generating the result.")])).

End ResultRoute.

(** ** What a response shows, and vocabulary for the statements *)

Definition context_get (context : list (string * PyVal)) (name : string)
    : option PyVal :=
  snd <$> find (fun p => String.eqb (fst p) name) context.

(** The value [result.html] prints after "Total Carbon Footprint:". *)
Definition displayed_total (r : Result Response) : option float :=
  match r with
  | Ok (Rendered template context) =>
      if String.eqb template "result.html" then
        match context_get context "total" with
        | Some (VFloat x) => Some x
        | _ => None
        end
      else None
  | _ => None
  end.

(** The message [index.html] prints in red. *)
Definition displayed_error (r : Result Response) : option string :=
  match r with
  | Ok (Rendered template context) =>
      if String.eqb template "index.html" then
        match context_get context "error" with
        | Some (VStr s) => Some s
        | _ => None
        end
      else None
  | _ => None
  end.

(** The two answers of the result route. *)
Definition result_page (img : list Byte.byte) (total : float) : Response :=
  Rendered "result.html"
    [("plot_url", VStr (base64.b64encode img)); ("total", VFloat total)].

Definition failure_page : Response :=
  Rendered "index.html" [("error", VStr "Error in generating the result.")].

(** The three fields of a submission. *)
Definition field_names : list string := ["transport"; "electricity"; "waste"].

(** [x] is what the field [key] of [data] stands for: the number its
    text denotes, or zero when the field is absent. *)
Definition reads `{NonAsciiReading} (data : gmap string string)
    (key : string) (x : float) : Prop :=
  match data !! key with
  | Some s => FloatSyntax.parse s = Some x
  | None => x = Float.zero
  end.

(** Some submitted field is not the text of a number. *)
Definition malformed `{NonAsciiReading} (data : gmap string string) : Prop :=
  ∃ key s, key ∈ field_names ∧ data !! key = Some s
           ∧ FloatSyntax.parse s = None.

(** [0 <= x] in Python; it fails for a NaN. *)
Definition nonneg (x : float) : Prop := Float.leb Float.zero x = true.

(** The sign carried by a number; a NaN carries none. *)
Definition signed (s : bool) (x : float) : Prop :=
  match x with
  | S754_zero s' | S754_infinity s' | S754_finite s' _ _ => s' = s
  | S754_nan => False
  end.

(** The figure a reader expects for the three components. *)
Definition footprint_chart (transport electricity waste : float) : Figure :=
  mkFigure (6, 4) ["Transport"; "Electricity"; "Waste"]
    [mkBar 0 transport "blue"; mkBar 1 electricity "green";
     mkBar 2 waste "red"]
    "Carbon Footprint Breakdown" "Category" "Carbon Footprint (in CO2e)".

(** The process state after [n] requests of the result page. *)
Fixpoint after_requests `{NonAsciiReading}
    (savefig : list Figure -> Result (list Byte.byte))
    (request : Request) (n : nat) (w : World) : World :=
  match n with
  | O => w
  | S n' => after_requests savefig request n' (snd (result savefig request w))
  end.

(** Sample inputs. *)
Definition fresh : World := mkWorld [] [].

Definition submission (transport electricity waste : string)
    : gmap string string :=
  {[ "transport" := transport; "electricity" := electricity;
     "waste" := waste ]}.

Definition query (transport electricity waste total : string)
    : gmap string string :=
  {[ "transport" := transport; "electricity" := electricity;
     "waste" := waste; "total" := total ]}.

Definition blank_png : list Figure -> Result (list Byte.byte) :=
  fun _ => Ok [].

Definition out_of_memory : list Figure -> Result (list Byte.byte) :=
  fun _ => Raise (OtherException "MemoryError" "").

(** The four parameters of the result page. *)
Definition query_names : list string :=
  ["transport"; "electricity"; "waste"; "total"].

(** The field [key] is present with the text [s], which [float] rejects. *)
Definition unreadable `{NonAsciiReading} (data : gmap string string)
    (key s : string) : Prop :=
  data !! key = Some s /\ FloatSyntax.parse s = None.

(** The process state once a handler has printed [e] after [prefix]. *)
Definition log_line (prefix : string) (e : exn) (w : World) : World :=
  mkWorld (stdout w ++ [(prefix, e)]) (figures w).

(** The methods for which Flask runs each view: those of the route's
    declaration, GET when none is declared, and HEAD, which Flask adds
    to GET.  A request with another method is answered by Flask and
    never reaches the view. *)
Definition index_methods : list string := ["GET"; "POST"; "HEAD"].
Definition result_methods : list string := ["GET"; "HEAD"].

(** A reading for the sample runs: no text beyond ASCII is a number.
    The sample texts are all ASCII, so the reading is never consulted. *)
Definition ascii_only : NonAsciiReading := fun _ => None.

Definition sample_post : Request :=
  mkRequest "POST" (submission "10" "5" "2") ∅.

Definition sample_get : Request :=
  mkRequest "GET" ∅ (query "10" "5" "2" "17").

(** The process state once the chart of a request has been drawn. *)
Definition with_chart (transport electricity waste : float) (w : World)
    : World :=
  mkWorld (stdout w) (footprint_chart transport electricity waste :: figures w).
(** * Properties

    Everything below holds for every reading of the texts beyond
    ASCII. *)

Ltac run_handler :=
  unfold calculate_footprint, try_except, print;
  unfold mbind, M_bind, mret, M_ret, lift; simpl.

Ltac in_names :=
  unfold query_names, field_names;
  repeat first [apply list_elem_of_here | apply list_elem_of_further].

Section Facts.

Context `{reading : NonAsciiReading}.

(** ** Binary64 addition *)

Section FloatFacts.

Lemma shr_1_nonneg mrs : 0 <= shr_m mrs -> 0 <= shr_m (shr_1 mrs).
Proof.
  destruct mrs as [m r s]; simpl.
  destruct m as [|p|p]; try destruct p; simpl; lia.
Qed.

Lemma iter_shr_1_nonneg p : forall mrs,
  0 <= shr_m mrs -> 0 <= shr_m (SpecFloat.iter_pos shr_1 p mrs).
Proof.
  induction p as [p IH|p IH|]; intros mrs H; simpl.
  - apply IH, IH, shr_1_nonneg, H.
  - apply IH, IH, H.
  - apply shr_1_nonneg, H.
Qed.

Lemma shr_fexp_nonneg m e l :
  0 <= m -> 0 <= shr_m (fst (shr_fexp Float.prec Float.emax m e l)).
Proof.
  intros H. unfold shr_fexp, shr.
  assert (H0 : 0 <= shr_m (shr_record_of_loc m l))
    by (destruct l as [|[]]; exact H).
  destruct (fexp _ _ _ - e); simpl; auto using iter_shr_1_nonneg.
Qed.

Lemma round_nearest_even_nonneg m l :
  0 <= m -> 0 <= round_nearest_even m l.
Proof.
  intros H. destruct l as [|[]]; simpl; try lia.
  destruct (Z.even m); lia.
Qed.

Lemma binary_round_aux_signed s m e l :
  0 <= m -> signed s (binary_round_aux Float.prec Float.emax s m e l).
Proof.
  intros H. unfold binary_round_aux.
  pose proof (shr_fexp_nonneg m e l H) as H1.
  destruct (shr_fexp Float.prec Float.emax m e l) as [mrs' e'].
  simpl in H1.
  pose proof (shr_fexp_nonneg
    (round_nearest_even (shr_m mrs') (loc_of_shr_record mrs')) e' loc_Exact
    (round_nearest_even_nonneg _ _ H1)) as H2.
  destruct (shr_fexp Float.prec Float.emax _ e' loc_Exact) as [mrs'' e''].
  simpl in H2.
  destruct (shr_m mrs'') as [|p|p]; simpl; [reflexivity | | lia].
  destruct (Z.leb e'' _); reflexivity.
Qed.

Lemma binary_round_signed s m e :
  signed s (binary_round Float.prec Float.emax s m e).
Proof.
  unfold binary_round.
  destruct (shl_align m e _) as [mz ez].
  apply binary_round_aux_signed. lia.
Qed.

Lemma signed_not_nan s x : signed s x -> Float.is_nan x = false.
Proof. destruct x; simpl; tauto. Qed.

Lemma signed_nonneg x : signed false x -> nonneg x.
Proof.
  unfold nonneg, Float.leb, SFleb.
  destruct x as [s|s| |s m e]; simpl; intros H; subst; tauto.
Qed.

Lemma nonneg_cases x :
  nonneg x -> (exists s, x = S754_zero s) \/ signed false x.
Proof.
  unfold nonneg, Float.leb, SFleb.
  destruct x as [s|s| |s m e]; simpl; intros H.
  - left. eauto.
  - right. destruct s; [discriminate | reflexivity].
  - discriminate.
  - right. destruct s; [discriminate | reflexivity].
Qed.

(** Adding a finite number never produces a NaN. *)
Lemma add_finite_not_nan x y :
  Float.is_nan x = false -> Float.is_finite y = true ->
  Float.is_nan (x +f y) = false.
Proof.
  destruct x as [sx|sx| |sx mx ex], y as [sy|sy| |sy my ey];
    simpl; try discriminate; intros _ _; try reflexivity.
  - destruct sx, sy; reflexivity.
  - match goal with
    | |- context [binary_normalize _ _ ?z ?e _] =>
        destruct z as [|p|p]; simpl; [reflexivity | |];
        exact (signed_not_nan _ _ (binary_round_signed _ p e))
    end.
Qed.

(** The sum of two non-negative numbers is non-negative. *)
Lemma add_nonneg x y : nonneg x -> nonneg y -> nonneg (x +f y).
Proof.
  intros Hx Hy.
  destruct (nonneg_cases x Hx) as [[sx ->]|Sx];
    destruct (nonneg_cases y Hy) as [[sy ->]|Sy].
  - destruct sx, sy; reflexivity.
  - destruct y as [sy|sy| |sy my ey]; simpl in Sy; try tauto; subst;
      try exact Hy.
    destruct sx; reflexivity.
  - destruct x as [sx|sx| |sx mx ex]; simpl in Sx; try tauto; subst;
      try exact Hx.
    destruct sy; reflexivity.
  - destruct x as [sx|sx| |sx mx ex], y as [sy|sy| |sy my ey];
      simpl in Sx, Sy; try tauto; subst; try reflexivity.
    apply signed_nonneg. unfold Float.add, SFadd. simpl.
    apply binary_round_signed.
Qed.

Lemma nonneg_not_nan x : nonneg x -> Float.is_nan x = false.
Proof. destruct x; simpl; try reflexivity. discriminate. Qed.

(** Python's [x == x] holds for every number but a NaN. *)
Lemma eqb_refl x : Float.is_nan x = false -> Float.eqb x x = true.
Proof.
  unfold Float.eqb, SFeqb.
  destruct x as [s|s| |s m e]; simpl; try discriminate; intros _.
  - reflexivity.
  - destruct s; reflexivity.
  - rewrite Z.compare_refl, Pos.compare_cont_refl. destruct s; reflexivity.
Qed.

End FloatFacts.

(** Each addition rounds to the nearest binary64 number: the sum of
    the numbers written 0.1, 0.2 and 0.3 is the one written
    0.6000000000000001, the neighbour of the one written 0.6. *)
Example sum_of_tenths :
  (x ← FloatSyntax.parse "0.1"; y ← FloatSyntax.parse "0.2";
   z ← FloatSyntax.parse "0.3"; Some (x +f y +f z))
    = FloatSyntax.parse "0.6000000000000001"
  /\ FloatSyntax.parse "0.6000000000000001" <> FloatSyntax.parse "0.6".
Proof. vm_compute. split; [reflexivity | discriminate]. Qed.

(** ** Reading the fields *)


Lemma py_float_default : py_float (VInt 0) = Ok Float.zero.
Proof. reflexivity. Qed.

Lemma field_ok (data : gmap string string) key x :
  py_float (get data key (VInt 0)) = Ok x <-> reads data key x.
Proof.
  unfold get, reads. destruct (data !! key) as [s|].
  - simpl. destruct (FloatSyntax.parse s); split; congruence.
  - rewrite py_float_default. split; congruence.
Qed.

Lemma field_raise (data : gmap string string) key e :
  py_float (get data key (VInt 0)) = Raise e ->
  exists s, data !! key = Some s /\ FloatSyntax.parse s = None
            /\ e = ValueError (VStr s).
Proof.
  unfold get. destruct (data !! key) as [s|].
  - simpl. destruct (FloatSyntax.parse s) eqn:E; intros H; [discriminate|].
    exists s. repeat split; congruence.
  - rewrite py_float_default. discriminate.
Qed.

Lemma malformed_field (data : gmap string string) key e :
  key ∈ field_names -> py_float (get data key (VInt 0)) = Raise e ->
  malformed data.
Proof.
  intros Hk H. destruct (field_raise _ _ _ H) as (s & Hs & Hp & _).
  exists key, s. auto.
Qed.

Lemma malformed_raises (data : gmap string string) :
  malformed data ->
  exists key e, key ∈ field_names
                /\ py_float (get data key (VInt 0)) = Raise e.
Proof.
  intros (key & s & Hk & Hs & Hp). exists key, (ValueError (VStr s)).
  split; [exact Hk|]. unfold get. rewrite Hs. simpl. rewrite Hp. reflexivity.
Qed.

(** ** The two outcomes of [calculate_footprint] *)

Lemma calculate_footprint_success (data : gmap string string) w t e x :
  reads data "transport" t -> reads data "electricity" e ->
  reads data "waste" x ->
  calculate_footprint data w = (Ok (Some (t, e, x, t +f e +f x)), w).
Proof.
  intros Ht He Hx. apply field_ok in Ht, He, Hx.
  run_handler. rewrite Ht; simpl. rewrite He; simpl. rewrite Hx; simpl.
  reflexivity.
Qed.

Lemma calculate_footprint_cases (data : gmap string string) w :
  (exists t e x,
      reads data "transport" t /\ reads data "electricity" e
      /\ reads data "waste" x
      /\ calculate_footprint data w = (Ok (Some (t, e, x, t +f e +f x)), w))
  \/ (malformed data
      /\ exists e, calculate_footprint data w =
           (Ok None,
            mkWorld (stdout w ++ [("Error in calculating footprint: ", e)])
                    (figures w))).
Proof.
  destruct (py_float (get data "transport" (VInt 0))) as [t|e1] eqn:Ht;
    [destruct (py_float (get data "electricity" (VInt 0))) as [e|e2] eqn:He;
     [destruct (py_float (get data "waste" (VInt 0))) as [x|e3] eqn:Hx|]|].
  - left. exists t, e, x. rewrite <- !field_ok.
    repeat split; try assumption.
    apply calculate_footprint_success; apply field_ok; assumption.
  - right. split.
    + apply (malformed_field _ "waste" e3); [set_solver | exact Hx].
    + destruct (field_raise _ _ _ Hx) as (s & _ & _ & ->).
      eexists. run_handler. rewrite Ht; simpl. rewrite He; simpl.
      rewrite Hx; simpl. reflexivity.
  - right. split.
    + apply (malformed_field _ "electricity" e2); [set_solver | exact He].
    + destruct (field_raise _ _ _ He) as (s & _ & _ & ->).
      eexists. run_handler. rewrite Ht; simpl. rewrite He; simpl.
      reflexivity.
  - right. split.
    + apply (malformed_field _ "transport" e1); [set_solver | exact Ht].
    + destruct (field_raise _ _ _ Ht) as (s & _ & _ & ->).
      eexists. run_handler. rewrite Ht; simpl. reflexivity.
Qed.

Lemma reads_not_malformed (data : gmap string string) t e x :
  reads data "transport" t -> reads data "electricity" e ->
  reads data "waste" x -> ~ malformed data.
Proof.
  intros Ht He Hx (key & s & Hk & Hs & Hp).
  unfold reads in *. unfold field_names in Hk.
  rewrite !elem_of_cons in Hk. rewrite elem_of_nil in Hk.
  destruct Hk as [->|[->|[->|[]]]]; rewrite Hs in *; congruence.
Qed.

Lemma calculate_footprint_failure (data : gmap string string) w :
  malformed data ->
  exists e, calculate_footprint data w =
    (Ok None,
     mkWorld (stdout w ++ [("Error in calculating footprint: ", e)])
             (figures w)).
Proof.
  intros Hm. destruct (calculate_footprint_cases data w)
    as [(t & e & x & Ht & He & Hx & _)|[_ H]]; [|exact H].
  destruct (reads_not_malformed _ _ _ _ Ht He Hx Hm).
Qed.

Lemma calculate_footprint_inv (data : gmap string string) w w' t e x total :
  calculate_footprint data w = (Ok (Some (t, e, x, total)), w') ->
  reads data "transport" t /\ reads data "electricity" e
  /\ reads data "waste" x /\ total = t +f e +f x /\ w' = w.
Proof.
  intros H. destruct (calculate_footprint_cases data w)
    as [(t' & e' & x' & Ht & He & Hx & H')|[_ [e0 H']]];
    rewrite H' in H; [|discriminate].
  injection H as <- <- <- <- <-. auto.
Qed.

(** Numbers of one sign add up to a number of that sign. *)
Lemma add_signed s x y : signed s x -> signed s y -> signed s (x +f y).
Proof.
  destruct x as [sx|sx| |sx mx ex], y as [sy|sy| |sy my ey];
    simpl; try tauto; intros -> ->; try reflexivity;
    try (destruct s; reflexivity).
  unfold Float.add, SFadd. destruct s; simpl; apply binary_round_signed.
Qed.

(** A text beyond ASCII is a number exactly when the reading says so:
    under a reading that takes the full-width digits １２ for 12, as
    CPython does, the submission １２, 5, 3 succeeds with the total 20. *)
Lemma unicode_digits_follow_the_reading w :
  read_non_ascii "１２" = Some (Float.of_Z 12) ->
  calculate_footprint (submission "１２" "5" "3") w =
    (Ok (Some (Float.of_Z 12, Float.of_Z 5, Float.of_Z 3, Float.of_Z 20)), w)
  /\ ~ malformed (submission "１２" "5" "3").
Proof.
  intros Hr.
  assert (Ht : reads (submission "１２" "5" "3") "transport" (Float.of_Z 12))
    by exact Hr.
  assert (He : reads (submission "１２" "5" "3") "electricity" (Float.of_Z 5))
    by (vm_compute; reflexivity).
  assert (Hx : reads (submission "１２" "5" "3") "waste" (Float.of_Z 3))
    by (vm_compute; reflexivity).
  split.
  - exact (calculate_footprint_success _ w _ _ _ Ht He Hx).
  - exact (reads_not_malformed _ _ _ _ Ht He Hx).
Qed.

(** ** Claims about [calculate_footprint] and the route [/] *)

(** C1. When the three fields are texts of non-negative finite numbers
    [t], [e] and [x], [calculate_footprint] succeeds, leaves the process
    state alone, and returns [t], [e], [x] and a total that is the
    binary64 sum [t + e + x] taken from left to right, as Python
    evaluates it: the test [total == t + e + x] holds and the total is
    again non-negative.  Three zeros give the total zero, not an error. *)
Theorem aggregate_sums_nonneg_finite :
  (forall (data : gmap string string) st se sx t e x w,
     data !! "transport" = Some st -> data !! "electricity" = Some se ->
     data !! "waste" = Some sx ->
     FloatSyntax.parse st = Some t -> FloatSyntax.parse se = Some e ->
     FloatSyntax.parse sx = Some x ->
     nonneg t /\ Float.is_finite t = true ->
     nonneg e /\ Float.is_finite e = true ->
     nonneg x /\ Float.is_finite x = true ->
     exists total,
       calculate_footprint data w = (Ok (Some (t, e, x, total)), w)
       /\ total = t +f e +f x
       /\ Float.eqb total (t +f e +f x) = true
       /\ nonneg total)
  /\ (forall w,
        calculate_footprint (submission "0" "0" "0") w =
          (Ok (Some (Float.zero, Float.zero, Float.zero, Float.zero)), w)).
Proof.
  split.
  - intros data st se sx t e x w Ht He Hx Pt Pe Px [Nt _] [Ne _] [Nx _].
    exists (t +f e +f x).
    assert (N : nonneg (t +f e +f x)) by auto using add_nonneg.
    split; [|split; [reflexivity|split; [|exact N]]].
    + apply calculate_footprint_success; unfold reads.
      * rewrite Ht. exact Pt.
      * rewrite He. exact Pe.
      * rewrite Hx. exact Px.
    + apply eqb_refl, nonneg_not_nan, N.
  - intros w. apply calculate_footprint_success; vm_compute; reflexivity.
Qed.

(** C10. No sign is checked: whatever numbers the three fields denote,
    negative ones included, [calculate_footprint] succeeds with those
    numbers and their sum; when all three carry a minus sign so does
    the total, as for -1, -2.5 and -3, whose total is -6.5. *)
Theorem aggregate_accepts_negative :
  (forall (data : gmap string string) st se sx t e x w,
     data !! "transport" = Some st -> data !! "electricity" = Some se ->
     data !! "waste" = Some sx ->
     FloatSyntax.parse st = Some t -> FloatSyntax.parse se = Some e ->
     FloatSyntax.parse sx = Some x ->
     calculate_footprint data w = (Ok (Some (t, e, x, t +f e +f x)), w)
     /\ (signed true t -> signed true e -> signed true x ->
         signed true (t +f e +f x)))
  /\ calculate_footprint (submission "-1" "-2.5" "-3") fresh =
       (Ok (Some (Float.neg (Float.of_Z 1), Float.neg (Float.of_decimal 25 (-1)),
                  Float.neg (Float.of_Z 3), Float.neg (Float.of_decimal 65 (-1)))),
        fresh)
  /\ SFltb (Float.neg (Float.of_decimal 65 (-1))) Float.zero = true.
Proof.
  split; [|split].
  - intros data st se sx t e x w Ht He Hx Pt Pe Px. split.
    + apply calculate_footprint_success; unfold reads.
      * rewrite Ht. exact Pt.
      * rewrite He. exact Pe.
      * rewrite Hx. exact Px.
    + auto using add_signed.
  - vm_compute. reflexivity.
  - vm_compute. reflexivity.
Qed.

(** C5. An absent field counts as zero: when every field that is
    present is the text of a number, [calculate_footprint] succeeds,
    each absent field is returned as 0.0 and each present one as the
    number it denotes.  The submission with only [electricity = "5"]
    gives transport 0, waste 0 and total 5. *)
Theorem aggregate_defaults_absent_to_zero :
  (forall (data : gmap string string) w,
     ~ malformed data ->
     exists t e x,
       calculate_footprint data w = (Ok (Some (t, e, x, t +f e +f x)), w)
       /\ reads data "transport" t /\ reads data "electricity" e
       /\ reads data "waste" x
       /\ (data !! "transport" = None -> t = Float.zero)
       /\ (data !! "electricity" = None -> e = Float.zero)
       /\ (data !! "waste" = None -> x = Float.zero))
  /\ (forall w,
        calculate_footprint {[ "electricity" := "5" ]} w =
          (Ok (Some (Float.zero, Float.of_Z 5, Float.zero, Float.of_Z 5)), w)).
Proof.
  split.
  - intros data w Hm.
    destruct (calculate_footprint_cases data w)
      as [(t & e & x & Ht & He & Hx & H)|[Hm' _]]; [|contradiction].
    exists t, e, x. repeat split; try assumption;
      intros Hn; unfold reads in *; rewrite Hn in *; assumption.
  - intros w.
    change (Float.of_Z 5) with (Float.zero +f Float.of_Z 5 +f Float.zero) at 2.
    apply calculate_footprint_success; vm_compute; reflexivity.
Qed.

(** C2. When some submitted field is not the text of a number,
    [calculate_footprint] returns [None], never a tuple with a sum of
    the other fields, and a POST of that form is answered with the form
    page carrying the fixed message "Invalid input values.", the same
    whichever field is at fault. *)
Theorem malformed_submission_rejected (request : Request) (w : World) :
  malformed (form request) ->
  (exists w', calculate_footprint (form request) w = (Ok None, w'))
  /\ (method request = "POST" ->
      exists w',
        index request w =
          (Ok (Rendered "index.html" [("error", VStr "Invalid input values.")]),
           w')
        /\ displayed_error (fst (index request w))
           = Some "Invalid input values.").
Proof.
  intros Hm.
  destruct (calculate_footprint_failure _ w Hm) as [e H]. split.
  - eexists. exact H.
  - intros Hp. eexists. unfold index. rewrite Hp. simpl.
    unfold mbind, M_bind. rewrite H. simpl. split; reflexivity.
Qed.

(** C9. [calculate_footprint] always returns: for every form and every
    process state it yields a tuple or [None] and raises nothing, and
    it yields [None] exactly when some submitted field is not the text
    of a number. *)
Theorem calculate_footprint_always_returns
    (data : gmap string string) (w : World) :
  exists r w',
    calculate_footprint data w = (Ok r, w')
    /\ (r = None <-> malformed data).
Proof.
  destruct (calculate_footprint_cases data w)
    as [(t & e & x & Ht & He & Hx & H)|[Hm [e H]]].
  - do 2 eexists. split; [exact H|]. split; [discriminate|].
    intros Hm. destruct (reads_not_malformed _ _ _ _ Ht He Hx Hm).
  - do 2 eexists. split; [exact H|]. tauto.
Qed.


(** C6, amended.  In every success outcome each of the three fields is
    the number [float] reads from the submitted text (0.0 for an absent
    field), the total is their sum and the process state is untouched;
    the fields may be infinite or NaN, and when all three are finite
    the total is a number, possibly an infinity, but not a NaN. *)
Theorem aggregate_success_fields_parse
    (data : gmap string string) (w w' : World) (t e x total : float) :
  calculate_footprint data w = (Ok (Some (t, e, x, total)), w') ->
  reads data "transport" t /\ reads data "electricity" e
  /\ reads data "waste" x /\ total = t +f e +f x /\ w' = w
  /\ (Float.is_finite t = true -> Float.is_finite e = true ->
      Float.is_finite x = true -> Float.is_nan total = false).
Proof.
  intros H. apply calculate_footprint_inv in H
    as (Ht & He & Hx & -> & ->).
  repeat split; try assumption.
  intros Ft Fe Fx. apply add_finite_not_nan; [|exact Fx].
  apply add_finite_not_nan; [|exact Fe].
  destruct t; [reflexivity | discriminate | discriminate | reflexivity].
Qed.

(** ** The result page *)

Section ResultFacts.

Variable savefig : list Figure -> Result (list Byte.byte).

Lemma draw_chart_run t e x w :
  draw_chart t e x w =
    (Ok tt, mkWorld (stdout w) (footprint_chart t e x :: figures w)).
Proof. reflexivity. Qed.

Lemma plt_savefig_run f w :
  plt_savefig savefig (mkWorld (stdout w) (f :: figures w)) =
    (savefig (f :: figures w), mkWorld (stdout w) (f :: figures w)).
Proof. reflexivity. Qed.

(** With four readable parameters the answer depends on the renderer
    alone. *)
Lemma result_run request w t e x total :
  reads (args request) "transport" t ->
  reads (args request) "electricity" e ->
  reads (args request) "waste" x ->
  reads (args request) "total" total ->
  result savefig request w =
    match savefig (footprint_chart t e x :: figures w) with
    | Ok img =>
        (Ok (result_page img total),
         mkWorld (stdout w) (footprint_chart t e x :: figures w))
    | Raise ex =>
        (Ok failure_page,
         mkWorld (stdout w ++ [("Error in generating result: ", ex)])
                 (footprint_chart t e x :: figures w))
    end.
Proof.
  intros Ht He Hx Htot. apply field_ok in Ht, He, Hx, Htot.
  unfold result, try_except, print.
  unfold mbind, M_bind, mret, M_ret, lift. simpl.
  rewrite Ht; simpl. rewrite He; simpl. rewrite Hx; simpl.
  rewrite Htot; simpl.
  destruct (savefig _); reflexivity.
Qed.

(** A parameter that is not the text of a number sends the visitor
    back to the form. *)
Lemma result_unreadable request w :
  (forall t e x total,
     ~ (reads (args request) "transport" t
        /\ reads (args request) "electricity" e
        /\ reads (args request) "waste" x
        /\ reads (args request) "total" total)) ->
  exists w', result savefig request w = (Ok failure_page, w').
Proof.
  intros Hno. unfold result, try_except, print.
  unfold mbind, M_bind, mret, M_ret, lift. simpl.
  destruct (py_float (get (args request) "transport" (VInt 0)))
    as [t|e1] eqn:Ht; simpl; [|eauto].
  destruct (py_float (get (args request) "electricity" (VInt 0)))
    as [e|e2] eqn:He; simpl; [|eauto].
  destruct (py_float (get (args request) "waste" (VInt 0)))
    as [x|e3] eqn:Hx; simpl; [|eauto].
  destruct (py_float (get (args request) "total" (VInt 0)))
    as [total|e4] eqn:Htot; simpl; [|eauto].
  destruct (Hno t e x total). rewrite <- !field_ok. auto.
Qed.

Lemma result_cases request w :
  (exists t e x total,
      reads (args request) "transport" t
      /\ reads (args request) "electricity" e
      /\ reads (args request) "waste" x
      /\ reads (args request) "total" total)
  \/ (exists w', result savefig request w = (Ok failure_page, w')).
Proof.
  destruct (py_float (get (args request) "transport" (VInt 0)))
    as [t|e1] eqn:Ht;
  [destruct (py_float (get (args request) "electricity" (VInt 0)))
    as [e|e2] eqn:He;
   [destruct (py_float (get (args request) "waste" (VInt 0)))
     as [x|e3] eqn:Hx;
    [destruct (py_float (get (args request) "total" (VInt 0)))
      as [total|e4] eqn:Htot|]|]|].
  1: { left. exists t, e, x, total. rewrite <- !field_ok. auto. }
  all: right; apply result_unreadable; intros t' e' x' total';
    rewrite <- !field_ok; intros (H1 & H2 & H3 & H4); congruence.
Qed.

(** The result page never lets an exception through. *)
Lemma result_returns request w :
  exists r w', result savefig request w = (Ok r, w').
Proof.
  destruct (result_cases request w)
    as [(t & e & x & total & Ht & He & Hx & Htot)|[w' H]].
  - rewrite (result_run _ _ _ _ _ _ Ht He Hx Htot).
    destruct (savefig _); eauto.
  - eauto.
Qed.

(** A total on the page is the one the query carries. *)
Lemma displayed_total_is_parameter request w total :
  displayed_total (fst (result savefig request w)) = Some total ->
  reads (args request) "total" total.
Proof.
  destruct (result_cases request w)
    as [(t & e & x & total' & Ht & He & Hx & Htot)|[w' H]].
  - rewrite (result_run _ _ _ _ _ _ Ht He Hx Htot).
    destruct (savefig _); simpl; [|discriminate].
    intros [= <-]. exact Htot.
  - rewrite H. discriminate.
Qed.

End ResultFacts.

(** ** Claims about the result page *)

(** C7. Whatever the three components and whatever pyplot holds already,
    the chart drawn for them is a new current figure with exactly three
    bars, at positions 0, 1 and 2 from left to right, labelled
    Transport, Electricity and Waste in that order and as high as the
    respective component; this is the figure the renderer is given. *)
Theorem chart_has_three_labelled_bars
    (transport electricity waste : float) (w : World) :
  exists f,
    draw_chart transport electricity waste w =
      (Ok tt, mkWorld (stdout w) (f :: figures w))
    /\ plt.labelled_bars f =
         [(0%nat, Some "Transport", transport);
          (1%nat, Some "Electricity", electricity);
          (2%nat, Some "Waste", waste)]
    /\ categories f = ["Transport"; "Electricity"; "Waste"]
    /\ length (bars f) = 3%nat
    /\ forall savefig,
         plt_savefig savefig (mkWorld (stdout w) (f :: figures w)) =
           (savefig (f :: figures w), mkWorld (stdout w) (f :: figures w)).
Proof.
  exists (footprint_chart transport electricity waste).
  split; [apply draw_chart_run|].
  do 3 (split; [reflexivity|]).
  intros savefig. apply plt_savefig_run.
Qed.

(** C8. The total shown by the result page does not depend on how often
    the page has been requested: after any numbers [n] and [m] of
    earlier requests with the same query, two requests that show a
    total show the same one. *)
Theorem result_total_independent_of_call_count
    (savefig : list Figure -> Result (list Byte.byte))
    (request : Request) (w : World) (n m : nat) (tn tm : float) :
  displayed_total
    (fst (result savefig request (after_requests savefig request n w)))
    = Some tn ->
  displayed_total
    (fst (result savefig request (after_requests savefig request m w)))
    = Some tm ->
  tn = tm.
Proof.
  intros Hn Hm.
  apply displayed_total_is_parameter in Hn, Hm.
  unfold reads in *. destruct (args request !! "total"); congruence.
Qed.


(** C3, amended.  The total is the binary64 sum of the three components
    wherever the program computes it: in every tuple returned by
    [calculate_footprint] and in the redirect the route [/] answers a
    valid POST with.  The route [/result] computes nothing: the total
    it prints is the number read from its [total] parameter (0.0 when
    absent). *)
Theorem total_is_sum_where_computed :
  (forall (data : gmap string string) w w' t e x total,
     calculate_footprint data w = (Ok (Some (t, e, x, total)), w') ->
     total = t +f e +f x)
  /\ (forall request w w' endpoint values,
        index request w = (Ok (Redirected endpoint values), w') ->
        exists t e x,
          endpoint = "result"
          /\ values = [("transport", VFloat t); ("electricity", VFloat e);
                       ("waste", VFloat x); ("total", VFloat (t +f e +f x))])
  /\ (forall savefig request w total,
        displayed_total (fst (result savefig request w)) = Some total ->
        reads (args request) "total" total).
Proof.
  split; [|split].
  - intros data w w' t e x total H.
    apply calculate_footprint_inv in H. tauto.
  - intros request w w' endpoint values. unfold index.
    destruct (String.eqb (method request) "POST"); [|discriminate].
    unfold mbind, M_bind.
    destruct (calculate_footprint_cases (form request) w)
      as [(t & e & x & _ & _ & _ & H)|[_ [e0 H]]]; rewrite H; simpl.
    + intros [= <- <- _]. exists t, e, x. split; reflexivity.
    + discriminate.
  - intros savefig request w total. apply displayed_total_is_parameter.
Qed.


(** C4, amended.  Whenever writing the picture raises, the result route
    raises nothing: it prints the exception on the standard output and
    answers with the form page carrying the fixed message "Error in
    generating the result.", a message of its own and not the
    "Invalid input values." of a malformed submission. *)
Theorem presentation_failure_recovered
    (savefig : list Figure -> Result (list Byte.byte))
    (request : Request) (w : World) (t e x total : float) (ex : exn) :
  reads (args request) "transport" t ->
  reads (args request) "electricity" e ->
  reads (args request) "waste" x ->
  reads (args request) "total" total ->
  fst (plt_savefig savefig (snd (draw_chart t e x w))) = Raise ex ->
  result savefig request w =
    (Ok (Rendered "index.html"
           [("error", VStr "Error in generating the result.")]),
     mkWorld (stdout w ++ [("Error in generating result: ", ex)])
             (footprint_chart t e x :: figures w))
  /\ displayed_error (fst (result savefig request w))
     = Some "Error in generating the result."
  /\ "Error in generating the result." <> "Invalid input values.".
Proof.
  intros Ht He Hx Htot Hraise.
  change (savefig (footprint_chart t e x :: figures w) = Raise ex) in Hraise.
  rewrite (result_run savefig _ _ _ _ _ _ Ht He Hx Htot), Hraise.
  repeat split. discriminate.
Qed.

(** ** Further properties of the helper and of the route [/] *)

Lemma add_comm x y : x +f y = y +f x.
Proof.
  destruct x as [sx|sx| |sx mx ex], y as [sy|sy| |sy my ey];
    try reflexivity; try (destruct sx, sy; reflexivity).
  unfold Float.add, SFadd. cbv zeta.
  rewrite (Z.min_comm ey ex). f_equal. apply Z.add_comm.
Qed.

Lemma unreadable_raises (data : gmap string string) key s :
  unreadable data key s ->
  py_float (get data key (VInt 0)) = Raise (ValueError (VStr s)).
Proof.
  intros [Hs Hp]. unfold get. rewrite Hs. simpl. rewrite Hp. reflexivity.
Qed.

Lemma same_lookup_same_field (data1 data2 : gmap string string) key :
  data1 !! key = data2 !! key ->
  py_float (get data1 key (VInt 0)) = py_float (get data2 key (VInt 0)).
Proof. unfold get. intros ->. reflexivity. Qed.

Lemma absent_reads_zero (data : gmap string string) key :
  data !! key = None -> reads data key Float.zero.
Proof. unfold reads. intros ->. reflexivity. Qed.

(** X1. The fields are read in the order transport, electricity, waste
    and the first one [float] rejects ends the reading: the line printed
    carries the text of that field, whatever the later fields hold, and
    nothing else of the process state changes. *)
Theorem calculate_footprint_logs_first_unreadable
    (data : gmap string string) (w : World) :
  (forall s,
     unreadable data "transport" s ->
     calculate_footprint data w =
       (Ok None,
        log_line "Error in calculating footprint: " (ValueError (VStr s)) w))
  /\ (forall t s,
        reads data "transport" t -> unreadable data "electricity" s ->
        calculate_footprint data w =
          (Ok None,
           log_line "Error in calculating footprint: " (ValueError (VStr s)) w))
  /\ (forall t e s,
        reads data "transport" t -> reads data "electricity" e ->
        unreadable data "waste" s ->
        calculate_footprint data w =
          (Ok None,
           log_line "Error in calculating footprint: " (ValueError (VStr s)) w)).
Proof.
  split; [|split].
  - intros s Hs. apply unreadable_raises in Hs.
    run_handler. rewrite Hs. reflexivity.
  - intros t s Ht Hs. apply field_ok in Ht. apply unreadable_raises in Hs.
    run_handler. rewrite Ht; simpl. rewrite Hs. reflexivity.
  - intros t e s Ht He Hs. apply field_ok in Ht, He.
    apply unreadable_raises in Hs.
    run_handler. rewrite Ht; simpl. rewrite He; simpl. rewrite Hs.
    reflexivity.
Qed.

(** X2. [calculate_footprint] looks at the three fields and at nothing
    else: two forms that agree on transport, electricity and waste get
    the same outcome and the same printed lines, whatever other fields
    they carry. *)
Theorem calculate_footprint_reads_only_its_fields
    (data1 data2 : gmap string string) (w : World) :
  (forall key, key ∈ field_names -> data1 !! key = data2 !! key) ->
  calculate_footprint data1 w = calculate_footprint data2 w.
Proof.
  intros H. run_handler.
  rewrite (same_lookup_same_field data1 data2 "transport"),
          (same_lookup_same_field data1 data2 "electricity"),
          (same_lookup_same_field data1 data2 "waste");
    [reflexivity | | |]; apply H; unfold field_names; set_solver.
Qed.

(** X3. Exchanging the texts of transport and electricity exchanges the
    two components and leaves the total as it is, since binary64
    addition is commutative.  Moving a value into waste, which is added
    last, can change the total: 1e16, 1, 1 add up to 1e16 while 1, 1,
    1e16 add up to 1e16 + 2. *)
Theorem swap_transport_electricity_same_total :
  (forall (data data' : gmap string string) t e x w,
     reads data "transport" t -> reads data "electricity" e ->
     reads data "waste" x ->
     data' !! "transport" = data !! "electricity" ->
     data' !! "electricity" = data !! "transport" ->
     data' !! "waste" = data !! "waste" ->
     exists total,
       calculate_footprint data w = (Ok (Some (t, e, x, total)), w)
       /\ calculate_footprint data' w = (Ok (Some (e, t, x, total)), w))
  /\ (calculate_footprint (submission "1e16" "1" "1") fresh =
        (Ok (Some (Float.of_Z (10 ^ 16), Float.of_Z 1, Float.of_Z 1,
                   Float.of_Z (10 ^ 16))), fresh)
      /\ calculate_footprint (submission "1" "1" "1e16") fresh =
           (Ok (Some (Float.of_Z 1, Float.of_Z 1, Float.of_Z (10 ^ 16),
                      Float.of_Z (10 ^ 16 + 2))), fresh)
      /\ Float.eqb (Float.of_Z (10 ^ 16)) (Float.of_Z (10 ^ 16 + 2)) = false).
Proof.
  split.
  - intros data data' t e x w Ht He Hx Et Ee Ex.
    exists (t +f e +f x). split.
    + apply calculate_footprint_success; assumption.
    + rewrite (add_comm t e).
      apply calculate_footprint_success; unfold reads in *.
      * rewrite Et. exact He.
      * rewrite Ee. exact Ht.
      * rewrite Ex. exact Hx.
  - vm_compute. repeat split; reflexivity.
Qed.

(** X4. Every request the route [/] admits, that is every GET, HEAD or
    POST, has one of three outcomes and raises nothing.  A GET or HEAD
    gets the plain form and changes nothing; a POST with a field
    [float] rejects gets the form with "Invalid input values." and one
    printed line; any other POST is redirected to the result page with
    the three components and their sum, and changes nothing.  No
    outcome touches pyplot. *)
Theorem index_outcomes (request : Request) (w : World) :
  method request ∈ index_methods ->
  (method request <> "POST"
   /\ index request w = (Ok (Rendered "index.html" []), w))
  \/ (method request = "POST" /\ malformed (form request)
      /\ exists e,
           index request w =
             (Ok (Rendered "index.html"
                    [("error", VStr "Invalid input values.")]),
              log_line "Error in calculating footprint: " e w))
  \/ (method request = "POST" /\ ~ malformed (form request)
      /\ exists t e x,
           reads (form request) "transport" t
           /\ reads (form request) "electricity" e
           /\ reads (form request) "waste" x
           /\ index request w =
                (Ok (Redirected "result"
                       [("transport", VFloat t); ("electricity", VFloat e);
                        ("waste", VFloat x);
                        ("total", VFloat (t +f e +f x))]), w)).
Proof.
  intros _. unfold index.
  destruct (String.eqb (method request) "POST") eqn:Em.
  - apply String.eqb_eq in Em. right. unfold mbind, M_bind.
    destruct (calculate_footprint_cases (form request) w)
      as [(t & e & x & Ht & He & Hx & H)|[Hm [e0 H]]]; rewrite H; simpl.
    + right. split; [exact Em|]. split.
      * exact (reads_not_malformed _ _ _ _ Ht He Hx).
      * exists t, e, x. auto.
    + left. split; [exact Em|]. split; [exact Hm|]. exists e0. reflexivity.
  - apply String.eqb_neq in Em. left. split; [exact Em | reflexivity].
Qed.

(** X5. A POST whose form has none of the three fields is not turned
    down: it is redirected to the result page with three zeros and the
    total zero. *)
Theorem empty_submission_redirects (request : Request) (w : World) :
  method request = "POST" ->
  (forall key, key ∈ field_names -> form request !! key = None) ->
  index request w =
    (Ok (Redirected "result"
           [("transport", VFloat Float.zero); ("electricity", VFloat Float.zero);
            ("waste", VFloat Float.zero); ("total", VFloat Float.zero)]), w).
Proof.
  intros Hm Hnone. unfold index. rewrite Hm. simpl. unfold mbind, M_bind.
  rewrite (calculate_footprint_success (form request) w
             Float.zero Float.zero Float.zero);
    [reflexivity | | |]; apply absent_reads_zero, Hnone;
    unfold field_names; set_solver.
Qed.

(** ** Further properties of the route [/result] *)


Lemma repeat_app_cons {A : Type} (a : A) n l :
  (repeat a n ++ a :: l = a :: repeat a n ++ l)%list.
Proof. induction n as [|n IH]; simpl; [reflexivity|]. rewrite IH. reflexivity. Qed.

Lemma result_first_unreadable savefig request w :
  (exists key s, key ∈ query_names /\ unreadable (args request) key s) ->
  exists key s,
    key ∈ query_names /\ unreadable (args request) key s
    /\ result savefig request w =
         (Ok failure_page,
          log_line "Error in generating result: " (ValueError (VStr s)) w).
Proof.
  intros (key0 & s0 & Hk0 & Hu0).
  unfold result, try_except, print.
  unfold mbind, M_bind, mret, M_ret, lift. simpl.
  destruct (py_float (get (args request) "transport" (VInt 0)))
    as [t|e1] eqn:Ht; simpl.
  2: { destruct (field_raise _ _ _ Ht) as (s & Hs & Hp & ->).
       exists "transport", s. split; [in_names|].
       split; [split; assumption | reflexivity]. }
  destruct (py_float (get (args request) "electricity" (VInt 0)))
    as [e|e2] eqn:He; simpl.
  2: { destruct (field_raise _ _ _ He) as (s & Hs & Hp & ->).
       exists "electricity", s. split; [in_names|].
       split; [split; assumption | reflexivity]. }
  destruct (py_float (get (args request) "waste" (VInt 0)))
    as [x|e3] eqn:Hx; simpl.
  2: { destruct (field_raise _ _ _ Hx) as (s & Hs & Hp & ->).
       exists "waste", s. split; [in_names|].
       split; [split; assumption | reflexivity]. }
  destruct (py_float (get (args request) "total" (VInt 0)))
    as [total|e4] eqn:Htot; simpl.
  2: { destruct (field_raise _ _ _ Htot) as (s & Hs & Hp & ->).
       exists "total", s. split; [in_names|].
       split; [split; assumption | reflexivity]. }
  apply unreadable_raises in Hu0. unfold query_names in Hk0.
  rewrite !elem_of_cons in Hk0. rewrite elem_of_nil in Hk0.
  destruct Hk0 as [->|[->|[->|[->|[]]]]]; congruence.
Qed.

Lemma result_world savefig request w t e x total :
  reads (args request) "transport" t ->
  reads (args request) "electricity" e ->
  reads (args request) "waste" x ->
  reads (args request) "total" total ->
  figures (snd (result savefig request w))
  = footprint_chart t e x :: figures w.
Proof.
  intros Ht He Hx Htot.
  rewrite (result_run savefig _ _ _ _ _ _ Ht He Hx Htot).
  destruct (savefig _); reflexivity.
Qed.

(** X6. Every request the route [/result] admits, that is every GET or
    HEAD, has one of three outcomes and raises nothing.  With four
    readable parameters the chart is drawn
    as a new figure and, when the picture is written, the page shows
    its base64 text and the total; when writing raises, the exception
    is printed and the form comes back with the failure message.  With
    an unreadable parameter the form comes back with the same message,
    the rejected text is printed and no figure is opened. *)
Theorem result_outcomes
    (savefig : list Figure -> Result (list Byte.byte))
    (request : Request) (w : World) :
  method request ∈ result_methods ->
  (exists t e x total img,
      reads (args request) "transport" t
      /\ reads (args request) "electricity" e
      /\ reads (args request) "waste" x
      /\ reads (args request) "total" total
      /\ savefig (footprint_chart t e x :: figures w) = Ok img
      /\ result savefig request w =
           (Ok (result_page img total), with_chart t e x w))
  \/ (exists t e x total ex,
        reads (args request) "transport" t
        /\ reads (args request) "electricity" e
        /\ reads (args request) "waste" x
        /\ reads (args request) "total" total
        /\ savefig (footprint_chart t e x :: figures w) = Raise ex
        /\ result savefig request w =
             (Ok failure_page,
              log_line "Error in generating result: " ex
                (with_chart t e x w)))
  \/ (exists key s,
        key ∈ query_names /\ unreadable (args request) key s
        /\ result savefig request w =
             (Ok failure_page,
              log_line "Error in generating result: "
                (ValueError (VStr s)) w)).
Proof.
  intros _.
  destruct (py_float (get (args request) "transport" (VInt 0)))
    as [t|e1] eqn:Ht;
  [destruct (py_float (get (args request) "electricity" (VInt 0)))
    as [e|e2] eqn:He;
   [destruct (py_float (get (args request) "waste" (VInt 0)))
     as [x|e3] eqn:Hx;
    [destruct (py_float (get (args request) "total" (VInt 0)))
      as [total|e4] eqn:Htot|]|]|].
  1: { apply field_ok in Ht, He, Hx, Htot.
       pose proof (result_run savefig request w _ _ _ _ Ht He Hx Htot) as H.
       destruct (savefig (footprint_chart t e x :: figures w)) as [img|ex]
         eqn:Es.
       - left. exists t, e, x, total, img. auto 10.
       - right. left. exists t, e, x, total, ex. auto 10. }
  all: right; right; apply result_first_unreadable.
  - destruct (field_raise _ _ _ Htot) as (s & Hs & Hp & _).
    exists "total", s. split; [in_names | split; auto].
  - destruct (field_raise _ _ _ Hx) as (s & Hs & Hp & _).
    exists "waste", s. split; [in_names | split; auto].
  - destruct (field_raise _ _ _ He) as (s & Hs & Hp & _).
    exists "electricity", s.
    split; [in_names | split; auto].
  - destruct (field_raise _ _ _ Ht) as (s & Hs & Hp & _).
    exists "transport", s.
    split; [in_names | split; auto].
Qed.

(** X7. The result page never closes a figure: each request with four
    readable parameters leaves one more figure open, whether or not the
    picture could be written, so after [n] such requests pyplot holds
    [n] copies of the chart on top of the figures it held before. *)
Theorem result_figures_accumulate
    (savefig : list Figure -> Result (list Byte.byte))
    (request : Request) (t e x total : float) (n : nat) (w : World) :
  reads (args request) "transport" t ->
  reads (args request) "electricity" e ->
  reads (args request) "waste" x ->
  reads (args request) "total" total ->
  figures (after_requests savefig request n w)
  = (repeat (footprint_chart t e x) n ++ figures w)%list.
Proof.
  intros Ht He Hx Htot. revert w.
  induction n as [|n IH]; intros w; [reflexivity|].
  simpl after_requests. rewrite IH.
  rewrite (result_world savefig _ _ _ _ _ _ Ht He Hx Htot).
  apply repeat_app_cons.
Qed.

(** X8. The result page looks at its four query parameters and at
    nothing else of the request: two requests the route admits (GET or
    HEAD) whose queries agree on transport, electricity, waste and
    total get the same answer and leave the same state, whatever their
    form and their other parameters. *)
Theorem result_reads_only_its_parameters
    (savefig : list Figure -> Result (list Byte.byte))
    (request1 request2 : Request) (w : World) :
  method request1 ∈ result_methods ->
  method request2 ∈ result_methods ->
  (forall key, key ∈ query_names ->
               args request1 !! key = args request2 !! key) ->
  result savefig request1 w = result savefig request2 w.
Proof.
  intros _ _ Hq. unfold result.
  rewrite (same_lookup_same_field (args request1) (args request2) "transport"),
    (same_lookup_same_field (args request1) (args request2) "electricity"),
    (same_lookup_same_field (args request1) (args request2) "waste"),
    (same_lookup_same_field (args request1) (args request2) "total");
    [reflexivity | | | |]; apply Hq; in_names.
Qed.

(** X9. A request of the result page without any of the four
    parameters is served: when the picture is written, the page shows
    the total 0.0 over a chart of three bars of height zero. *)
Theorem result_without_parameters
    (savefig : list Figure -> Result (list Byte.byte))
    (request : Request) (w : World) (img : list Byte.byte) :
  (forall key, key ∈ query_names -> args request !! key = None) ->
  savefig (footprint_chart Float.zero Float.zero Float.zero :: figures w)
    = Ok img ->
  result savefig request w =
    (Ok (result_page img Float.zero),
     with_chart Float.zero Float.zero Float.zero w)
  /\ plt.labelled_bars (footprint_chart Float.zero Float.zero Float.zero) =
       [(0%nat, Some "Transport", Float.zero);
        (1%nat, Some "Electricity", Float.zero);
        (2%nat, Some "Waste", Float.zero)].
Proof.
  intros Hnone Hs. split; [|reflexivity].
  rewrite (result_run savefig request w
             Float.zero Float.zero Float.zero Float.zero), Hs;
    [reflexivity | | | |]; apply absent_reads_zero, Hnone;
    in_names.
Qed.

(** X10. The two routes fit together.  When a POST is redirected and
    the browser follows with a query whose four texts read back as the
    four values of the redirect, the result page draws the three
    submitted components and, once the picture is written, shows their
    sum as the total. *)
Theorem redirect_then_result
    (savefig : list Figure -> Result (list Byte.byte))
    (request follow : Request) (w w1 : World)
    (endpoint : string) (values : list (string * PyVal)) :
  index request w = (Ok (Redirected endpoint values), w1) ->
  (forall key v, (key, VFloat v) ∈ values -> reads (args follow) key v) ->
  exists t e x,
    reads (form request) "transport" t
    /\ reads (form request) "electricity" e
    /\ reads (form request) "waste" x
    /\ w1 = w
    /\ figures (snd (result savefig follow w1))
       = footprint_chart t e x :: figures w
    /\ forall img,
         savefig (footprint_chart t e x :: figures w) = Ok img ->
         result savefig follow w1 =
           (Ok (result_page img (t +f e +f x)), with_chart t e x w).
Proof.
  intros Hi Hq. unfold index in Hi.
  destruct (String.eqb (method request) "POST"); [|discriminate].
  unfold mbind, M_bind in Hi.
  destruct (calculate_footprint_cases (form request) w)
    as [(t & e & x & Ht & He & Hx & H)|[_ [e0 H]]];
    rewrite H in Hi; simpl in Hi; [|discriminate].
  injection Hi as <- <- <-.
  assert (Rt : reads (args follow) "transport" t) by (apply Hq; set_solver-).
  assert (Re : reads (args follow) "electricity" e) by (apply Hq; set_solver-).
  assert (Rx : reads (args follow) "waste" x) by (apply Hq; set_solver-).
  assert (Rtot : reads (args follow) "total" (t +f e +f x))
    by (apply Hq; set_solver-).
  exists t, e, x. repeat split; try assumption.
  - apply (result_world savefig _ _ _ _ _ _ Rt Re Rx Rtot).
  - intros img Hs.
    rewrite (result_run savefig _ _ _ _ _ _ Rt Re Rx Rtot), Hs. reflexivity.
Qed.

(** ** A field left blank *)

Lemma lstrip_spaces l :
  Forall (fun c => FloatSyntax.is_space c = true) l ->
  FloatSyntax.lstrip l = [].
Proof.
  induction 1 as [|c l Hc _ IH]; simpl; [reflexivity|].
  rewrite Hc. exact IH.
Qed.

Lemma spaces_are_ascii l :
  Forall (fun c => FloatSyntax.is_space c = true) l ->
  forallb (fun c => (N_of_ascii c <? 128)%N) l = true.
Proof.
  induction 1 as [|c l Hc _ IH]; simpl; [reflexivity|].
  rewrite IH, andb_true_r. unfold FloatSyntax.is_space in Hc.
  apply N.ltb_lt. apply orb_true_iff in Hc as [Hc|Hc].
  - apply N.eqb_eq in Hc. lia.
  - apply andb_true_iff in Hc as [_ Hc]. apply N.leb_le in Hc. lia.
Qed.

Lemma parse_blank s :
  Forall (fun c => FloatSyntax.is_space c = true) (list_ascii_of_string s) ->
  FloatSyntax.parse s = None.
Proof.
  intros Hs. unfold FloatSyntax.parse, FloatSyntax.is_ascii.
  rewrite (spaces_are_ascii _ Hs).
  unfold FloatSyntax.parse_ascii, FloatSyntax.strip.
  rewrite (lstrip_spaces _ Hs). reflexivity.
Qed.

(** X11. Only an absent field counts as zero.  A field that is present
    with an empty text, or with white space only, as a browser sends it
    for an input left blank, makes the POST fail with "Invalid input
    values." *)
Theorem blank_field_rejected (request : Request) (w : World)
    (key s : string) :
  method request = "POST" ->
  key ∈ field_names ->
  form request !! key = Some s ->
  Forall (fun c => FloatSyntax.is_space c = true) (list_ascii_of_string s) ->
  exists e,
    index request w =
      (Ok (Rendered "index.html" [("error", VStr "Invalid input values.")]),
       log_line "Error in calculating footprint: " e w).
Proof.
  intros Hm Hk Hs Hblank.
  assert (Hbad : malformed (form request)).
  { exists key, s. auto using parse_blank. }
  destruct (calculate_footprint_failure _ w Hbad) as [e H].
  exists e. unfold index. rewrite Hm. simpl.
  unfold mbind, M_bind. rewrite H. reflexivity.
Qed.

End Facts.

(** ** The claims that fail, at sample inputs

    The sample texts are ASCII: the outcomes are the same for every
    reading of the texts beyond ASCII. *)

(** C6, as the code has it.  [float] accepts [inf], [nan] and numerals
    beyond the binary64 range, and nothing checks the result: a
    submission with such a field succeeds with a field that is not
    finite, and two finite fields can add up to an infinite total. *)
Lemma aggregate_succeeds_with_non_finite :
  (forall reading : NonAsciiReading,
     calculate_footprint (submission "inf" "0" "0") fresh =
       (Ok (Some (Float.infinity, Float.zero, Float.zero, Float.infinity)),
        fresh)
     /\ calculate_footprint (submission "1" "nan" "2") fresh =
          (Ok (Some (Float.of_Z 1, Float.nan, Float.of_Z 2, Float.nan)), fresh)
     /\ calculate_footprint (submission "1e308" "1e308" "0") fresh =
          (Ok (Some (Float.of_Z (10 ^ 308), Float.of_Z (10 ^ 308), Float.zero,
                     Float.infinity)), fresh))
  /\ Float.is_finite Float.infinity = false
  /\ Float.is_finite Float.nan = false
  /\ Float.is_finite (Float.of_Z (10 ^ 308)) = true.
Proof.
  split; [intros reading|]; vm_compute; repeat split; reflexivity.
Qed.

(** C3, as the code has it.  The result route takes the total from the
    query: asked for transport 1, electricity 2, waste 3 and total 100,
    it draws bars of height 1, 2 and 3 and prints the total 100, which
    is not their sum 6. *)
Lemma result_total_need_not_be_sum :
  (forall reading : NonAsciiReading,
     displayed_total
       (fst (result blank_png (mkRequest "GET" ∅ (query "1" "2" "3" "100"))
               fresh))
       = Some (Float.of_Z 100)
     /\ head (figures
               (snd (result blank_png
                       (mkRequest "GET" ∅ (query "1" "2" "3" "100")) fresh)))
        = Some (footprint_chart (Float.of_Z 1) (Float.of_Z 2) (Float.of_Z 3)))
  /\ Float.of_Z 1 +f Float.of_Z 2 +f Float.of_Z 3 = Float.of_Z 6
  /\ Float.eqb (Float.of_Z 100) (Float.of_Z 6) = false.
Proof.
  split; [intros reading|]; vm_compute; repeat split; reflexivity.
Qed.

(** C4, as the code has it.  When the renderer raises, the visitor
    reads "Error in generating the result."; a malformed submission is
    answered with "Invalid input values.".  The two messages differ. *)
Lemma presentation_failure_has_own_message :
  plt_savefig out_of_memory
    (snd (draw_chart (Float.of_Z 10) (Float.of_Z 5) (Float.of_Z 2) fresh))
    = (Raise (OtherException "MemoryError" ""),
       snd (draw_chart (Float.of_Z 10) (Float.of_Z 5) (Float.of_Z 2) fresh))
  /\ (forall reading : NonAsciiReading,
        displayed_error
          (fst (result out_of_memory
                  (mkRequest "GET" ∅ (query "10" "5" "2" "17")) fresh))
        = Some "Error in generating the result."
        /\ displayed_error
             (fst (index (mkRequest "POST" (submission "10" "five" "2") ∅)
                     fresh))
           = Some "Invalid input values.")
  /\ String.eqb "Error in generating the result." "Invalid input values."
     = false.
Proof.
  split; [|split; [intros reading|]]; vm_compute; repeat split; reflexivity.
Qed.

(** ** Sample runs

    Each general statement above, applied to a sample request under the
    reading [ascii_only]. *)

#[local] Existing Instance ascii_only.

Lemma aggregate_sums_nonneg_finite_witness :
  exists total,
    calculate_footprint (submission "10" "5" "2") fresh =
      (Ok (Some (Float.of_Z 10, Float.of_Z 5, Float.of_Z 2, total)), fresh)
    /\ total = Float.of_Z 10 +f Float.of_Z 5 +f Float.of_Z 2
    /\ Float.eqb total (Float.of_Z 10 +f Float.of_Z 5 +f Float.of_Z 2) = true
    /\ nonneg total.
Proof.
  apply (proj1 aggregate_sums_nonneg_finite
           (submission "10" "5" "2") "10" "5" "2");
    try split; vm_compute; reflexivity.
Defined.

Lemma aggregate_accepts_negative_witness :
  calculate_footprint (submission "-4" "0.5" "-inf") fresh =
    (Ok (Some (Float.neg (Float.of_Z 4), Float.of_decimal 5 (-1),
               S754_infinity true,
               Float.neg (Float.of_Z 4) +f Float.of_decimal 5 (-1)
                 +f S754_infinity true)), fresh).
Proof.
  apply (proj1 aggregate_accepts_negative
           (submission "-4" "0.5" "-inf") "-4" "0.5" "-inf");
    vm_compute; reflexivity.
Defined.

Lemma aggregate_defaults_absent_to_zero_witness :
  exists t e x,
    calculate_footprint {[ "waste" := "2.5" ]} fresh =
      (Ok (Some (t, e, x, t +f e +f x)), fresh)
    /\ reads {[ "waste" := "2.5" ]} "transport" t
    /\ reads {[ "waste" := "2.5" ]} "electricity" e
    /\ reads {[ "waste" := "2.5" ]} "waste" x
    /\ (({[ "waste" := "2.5" ]} : gmap string string) !! "transport" = None
        -> t = Float.zero)
    /\ (({[ "waste" := "2.5" ]} : gmap string string) !! "electricity" = None
        -> e = Float.zero)
    /\ (({[ "waste" := "2.5" ]} : gmap string string) !! "waste" = None
        -> x = Float.zero).
Proof.
  apply (proj1 aggregate_defaults_absent_to_zero {[ "waste" := "2.5" ]} fresh).
  intros (key & s & Hk & Hs & Hp).
  unfold field_names in Hk.
  rewrite !elem_of_cons in Hk. rewrite elem_of_nil in Hk.
  destruct Hk as [->|[->|[->|[]]]]; vm_compute in Hs; try discriminate.
  injection Hs as <-. vm_compute in Hp. discriminate.
Defined.

Lemma malformed_submission_rejected_witness :
  (exists w', calculate_footprint (submission "10" "five" "2") fresh
              = (Ok None, w'))
  /\ (method (mkRequest "POST" (submission "10" "five" "2") ∅) = "POST" ->
      exists w',
        index (mkRequest "POST" (submission "10" "five" "2") ∅) fresh =
          (Ok (Rendered "index.html" [("error", VStr "Invalid input values.")]),
           w')
        /\ displayed_error
             (fst (index (mkRequest "POST" (submission "10" "five" "2") ∅)
                     fresh))
           = Some "Invalid input values.").
Proof.
  apply (malformed_submission_rejected
           (mkRequest "POST" (submission "10" "five" "2") ∅) fresh).
  exists "electricity", "five".
  split; [unfold field_names; set_solver|].
  split; vm_compute; reflexivity.
Defined.

Lemma aggregate_success_fields_parse_witness :
  reads (submission "1e308" "1e308" "0") "transport" (Float.of_Z (10 ^ 308))
  /\ reads (submission "1e308" "1e308" "0") "electricity" (Float.of_Z (10 ^ 308))
  /\ reads (submission "1e308" "1e308" "0") "waste" Float.zero
  /\ Float.infinity = Float.of_Z (10 ^ 308) +f Float.of_Z (10 ^ 308) +f Float.zero
  /\ fresh = fresh
  /\ (Float.is_finite (Float.of_Z (10 ^ 308)) = true ->
      Float.is_finite (Float.of_Z (10 ^ 308)) = true ->
      Float.is_finite Float.zero = true ->
      Float.is_nan Float.infinity = false).
Proof.
  apply (aggregate_success_fields_parse (submission "1e308" "1e308" "0")
           fresh fresh).
  vm_compute. reflexivity.
Defined.

Lemma result_total_independent_of_call_count_witness :
  displayed_total
    (fst (result blank_png (mkRequest "GET" ∅ (query "10" "5" "2" "17"))
            (after_requests blank_png
               (mkRequest "GET" ∅ (query "10" "5" "2" "17")) 1 fresh)))
    = Some (Float.of_Z 17)
  /\ displayed_total
       (fst (result blank_png (mkRequest "GET" ∅ (query "10" "5" "2" "17"))
               (after_requests blank_png
                  (mkRequest "GET" ∅ (query "10" "5" "2" "17")) 4 fresh)))
     = Some (Float.of_Z 17)
  /\ Float.of_Z 17 = Float.of_Z 17.
Proof.
  split; [vm_compute; reflexivity|]. split; [vm_compute; reflexivity|].
  apply (result_total_independent_of_call_count blank_png
           (mkRequest "GET" ∅ (query "10" "5" "2" "17")) fresh 1 4);
    vm_compute; reflexivity.
Defined.

Lemma total_is_sum_where_computed_witness :
  Float.of_Z 17 = Float.of_Z 10 +f Float.of_Z 5 +f Float.of_Z 2.
Proof.
  apply (proj1 total_is_sum_where_computed (submission "10" "5" "2")
           fresh fresh).
  vm_compute. reflexivity.
Defined.

Lemma presentation_failure_recovered_witness :
  result out_of_memory (mkRequest "GET" ∅ (query "10" "5" "2" "17")) fresh =
    (Ok (Rendered "index.html"
           [("error", VStr "Error in generating the result.")]),
     mkWorld (stdout fresh ++ [("Error in generating result: ",
                                OtherException "MemoryError" "")])
             (footprint_chart (Float.of_Z 10) (Float.of_Z 5) (Float.of_Z 2)
                :: figures fresh))
  /\ displayed_error
       (fst (result out_of_memory
               (mkRequest "GET" ∅ (query "10" "5" "2" "17")) fresh))
     = Some "Error in generating the result."
  /\ "Error in generating the result." <> "Invalid input values.".
Proof.
  apply (presentation_failure_recovered out_of_memory
           (mkRequest "GET" ∅ (query "10" "5" "2" "17")) fresh
           (Float.of_Z 10) (Float.of_Z 5) (Float.of_Z 2) (Float.of_Z 17)
           (OtherException "MemoryError" ""));
    vm_compute; reflexivity.
Defined.

Lemma calculate_footprint_logs_first_unreadable_witness :
  calculate_footprint (submission "ten" "five" "2") fresh =
    (Ok None,
     log_line "Error in calculating footprint: " (ValueError (VStr "ten"))
       fresh)
  /\ calculate_footprint (submission "10" "five" "two") fresh =
       (Ok None,
        log_line "Error in calculating footprint: " (ValueError (VStr "five"))
          fresh).
Proof.
  split.
  - apply (proj1 (calculate_footprint_logs_first_unreadable
                    (submission "ten" "five" "2") fresh) "ten").
    split; vm_compute; reflexivity.
  - apply (proj1 (proj2 (calculate_footprint_logs_first_unreadable
                           (submission "10" "five" "two") fresh))
             (Float.of_Z 10) "five").
    + vm_compute. reflexivity.
    + split; vm_compute; reflexivity.
Defined.

Lemma calculate_footprint_reads_only_its_fields_witness :
  calculate_footprint (<["total" := "999"]> (submission "10" "5" "2")) fresh
  = calculate_footprint (<["note" := "n/a"]> (submission "10" "5" "2")) fresh.
Proof.
  apply (calculate_footprint_reads_only_its_fields
           (<["total" := "999"]> (submission "10" "5" "2"))
           (<["note" := "n/a"]> (submission "10" "5" "2")) fresh).
  intros key Hk. unfold field_names in Hk.
  rewrite !elem_of_cons in Hk. rewrite elem_of_nil in Hk.
  destruct Hk as [->|[->|[->|[]]]]; vm_compute; reflexivity.
Defined.

Lemma swap_transport_electricity_same_total_witness :
  exists total,
    calculate_footprint (submission "0.1" "0.7" "3") fresh =
      (Ok (Some (Float.of_decimal 1 (-1), Float.of_decimal 7 (-1),
                 Float.of_Z 3, total)), fresh)
    /\ calculate_footprint (submission "0.7" "0.1" "3") fresh =
         (Ok (Some (Float.of_decimal 7 (-1), Float.of_decimal 1 (-1),
                    Float.of_Z 3, total)), fresh).
Proof.
  apply (proj1 swap_transport_electricity_same_total
           (submission "0.1" "0.7" "3") (submission "0.7" "0.1" "3"));
    vm_compute; reflexivity.
Defined.

Lemma empty_submission_redirects_witness :
  index (mkRequest "POST" {[ "csrf" := "token" ]} ∅) fresh =
    (Ok (Redirected "result"
           [("transport", VFloat Float.zero); ("electricity", VFloat Float.zero);
            ("waste", VFloat Float.zero); ("total", VFloat Float.zero)]), fresh).
Proof.
  apply (empty_submission_redirects
           (mkRequest "POST" {[ "csrf" := "token" ]} ∅) fresh).
  - reflexivity.
  - intros key Hk. unfold field_names in Hk.
    rewrite !elem_of_cons in Hk. rewrite elem_of_nil in Hk.
    destruct Hk as [->|[->|[->|[]]]]; vm_compute; reflexivity.
Defined.

Lemma result_figures_accumulate_witness :
  figures (after_requests out_of_memory
             (mkRequest "GET" ∅ (query "10" "5" "2" "17")) 3 fresh)
  = (repeat (footprint_chart (Float.of_Z 10) (Float.of_Z 5) (Float.of_Z 2)) 3
       ++ figures fresh)%list.
Proof.
  apply (result_figures_accumulate out_of_memory
           (mkRequest "GET" ∅ (query "10" "5" "2" "17"))
           (Float.of_Z 10) (Float.of_Z 5) (Float.of_Z 2) (Float.of_Z 17));
    vm_compute; reflexivity.
Defined.

Lemma result_reads_only_its_parameters_witness :
  result blank_png (mkRequest "GET" ∅ (query "10" "5" "2" "17")) fresh
  = result blank_png
      (mkRequest "HEAD" (submission "1" "1" "1")
         (<["page" := "2"]> (query "10" "5" "2" "17"))) fresh.
Proof.
  apply (result_reads_only_its_parameters blank_png
           (mkRequest "GET" ∅ (query "10" "5" "2" "17"))
           (mkRequest "HEAD" (submission "1" "1" "1")
              (<["page" := "2"]> (query "10" "5" "2" "17"))) fresh).
  - in_names.
  - in_names.
  - intros key Hk. unfold query_names in Hk.
    rewrite !elem_of_cons in Hk. rewrite elem_of_nil in Hk.
    destruct Hk as [->|[->|[->|[->|[]]]]]; vm_compute; reflexivity.
Defined.

Lemma result_without_parameters_witness :
  result blank_png (mkRequest "GET" ∅ ∅) fresh =
    (Ok (result_page [] Float.zero),
     with_chart Float.zero Float.zero Float.zero fresh)
  /\ plt.labelled_bars (footprint_chart Float.zero Float.zero Float.zero) =
       [(0%nat, Some "Transport", Float.zero);
        (1%nat, Some "Electricity", Float.zero);
        (2%nat, Some "Waste", Float.zero)].
Proof.
  apply (result_without_parameters blank_png (mkRequest "GET" ∅ ∅) fresh []).
  - intros key _. reflexivity.
  - reflexivity.
Defined.

Lemma blank_field_rejected_witness :
  exists e,
    index (mkRequest "POST" (submission "10" "" "2") ∅) fresh =
      (Ok (Rendered "index.html" [("error", VStr "Invalid input values.")]),
       log_line "Error in calculating footprint: " e fresh).
Proof.
  apply (blank_field_rejected (mkRequest "POST" (submission "10" "" "2") ∅)
           fresh "electricity" "").
  - reflexivity.
  - in_names.
  - vm_compute. reflexivity.
  - constructor.
Defined.

Lemma redirect_then_result_witness :
  exists t e x,
    reads (form (mkRequest "POST" (submission "10" "5" "2") ∅)) "transport" t
    /\ reads (form (mkRequest "POST" (submission "10" "5" "2") ∅))
         "electricity" e
    /\ reads (form (mkRequest "POST" (submission "10" "5" "2") ∅)) "waste" x
    /\ fresh = fresh
    /\ figures (snd (result blank_png
                       (mkRequest "GET" ∅ (query "10.0" "5.0" "2.0" "17.0"))
                       fresh))
       = footprint_chart t e x :: figures fresh
    /\ forall img,
         blank_png (footprint_chart t e x :: figures fresh) = Ok img ->
         result blank_png
           (mkRequest "GET" ∅ (query "10.0" "5.0" "2.0" "17.0")) fresh =
           (Ok (result_page img (t +f e +f x)), with_chart t e x fresh).
Proof.
  apply (redirect_then_result blank_png
           (mkRequest "POST" (submission "10" "5" "2") ∅)
           (mkRequest "GET" ∅ (query "10.0" "5.0" "2.0" "17.0"))
           fresh fresh "result"
           [("transport", VFloat (Float.of_Z 10));
            ("electricity", VFloat (Float.of_Z 5));
            ("waste", VFloat (Float.of_Z 2));
            ("total", VFloat (Float.of_Z 17))]).
  - vm_compute. reflexivity.
  - intros key v Hin.
    rewrite !elem_of_cons in Hin. rewrite elem_of_nil in Hin.
    destruct Hin as [E|[E|[E|[E|[]]]]]; injection E as -> ->;
      vm_compute; reflexivity.
Defined.

Lemma index_outcomes_witness :
  (method sample_post <> "POST"
   /\ index sample_post fresh = (Ok (Rendered "index.html" []), fresh))
  \/ (method sample_post = "POST" /\ malformed (form sample_post)
      /\ exists e,
           index sample_post fresh =
             (Ok (Rendered "index.html"
                    [("error", VStr "Invalid input values.")]),
              log_line "Error in calculating footprint: " e fresh))
  \/ (method sample_post = "POST" /\ ~ malformed (form sample_post)
      /\ exists t e x,
           reads (form sample_post) "transport" t
           /\ reads (form sample_post) "electricity" e
           /\ reads (form sample_post) "waste" x
           /\ index sample_post fresh =
                (Ok (Redirected "result"
                       [("transport", VFloat t); ("electricity", VFloat e);
                        ("waste", VFloat x);
                        ("total", VFloat (t +f e +f x))]), fresh)).
Proof.
  apply (index_outcomes sample_post fresh). in_names.
Defined.

Lemma result_outcomes_witness :
  (exists t e x total img,
      reads (args sample_get) "transport" t
      /\ reads (args sample_get) "electricity" e
      /\ reads (args sample_get) "waste" x
      /\ reads (args sample_get) "total" total
      /\ blank_png (footprint_chart t e x :: figures fresh) = Ok img
      /\ result blank_png sample_get fresh =
           (Ok (result_page img total), with_chart t e x fresh))
  \/ (exists t e x total ex,
        reads (args sample_get) "transport" t
        /\ reads (args sample_get) "electricity" e
        /\ reads (args sample_get) "waste" x
        /\ reads (args sample_get) "total" total
        /\ blank_png (footprint_chart t e x :: figures fresh) = Raise ex
        /\ result blank_png sample_get fresh =
             (Ok failure_page,
              log_line "Error in generating result: " ex
                (with_chart t e x fresh)))
  \/ (exists key s,
        key ∈ query_names /\ unreadable (args sample_get) key s
        /\ result blank_png sample_get fresh =
             (Ok failure_page,
              log_line "Error in generating result: "
                (ValueError (VStr s)) fresh)).
Proof.
  apply (result_outcomes blank_png sample_get fresh). in_names.
Defined.
